(** * The non-divergent barotropic vorticity model: time integration core

    A shallow embedding of [barotropic/model.py] (class [BarotropicModel]):
    construction, [set_state], [step_forward] and [run_with_snapshots].

    Numbers.  The model's numpy.float64 values are represented by exact
    rationals ([Qc], canonical fractions with Leibniz equality) and its
    numpy.complex128 values by pairs of them, so rounding, infinities and
    NaN are outside the model.  A scalar division or [%] by zero raises the
    Python exception it raises in the code; a numpy array division by zero
    (an infinity or NaN there) is outside the model, and a result that
    depends on the value of such a quotient assumes a non-zero divisor.

    Arrays.  A spectral vector is a list of complex numbers, a grid field a
    list of rows.  Element-wise numpy operations are [zip_with]; every array
    the code combines has the shape fixed by the transform engine, and
    [buf[:] = val] then leaves [buf] with the values of [val].

    The spectral transform engine ([pyspharm_transforms.TransformsEngine])
    is a collaborator whose code is not part of the model: it is a record of
    functions, and every result below holds for any such record. *)

From Stdlib Require Import QArith Qcanon Qround Ring Field Lia.
From stdpp Require Import base list numbers option.

Local Open Scope Qc_scope.

(** ** Scalars *)

(** The float literal [7.29e-5]. *)
Definition OMEGA : Qc := Qc_of_Z 729 / Qc_of_Z 10000000.

(** numpy.complex128, with exact components. *)
Record complex : Type := Complex { re : Qc; im : Qc }.

Definition C0 : complex := Complex 0 0.
Definition C1 : complex := Complex 1 0.
Definition Cadd (a b : complex) : complex := Complex (re a + re b) (im a + im b).
Definition Csub (a b : complex) : complex := Complex (re a - re b) (im a - im b).
Definition Copp (a : complex) : complex := Complex (- re a) (- im a).
Definition Cmul (a b : complex) : complex :=
  Complex (re a * re b - im a * im b) (re a * im b + im a * re b).

(** Type promotion of a float that meets a complex operand. *)
Definition of_real (x : Qc) : complex := Complex x 0.

(** ** Arrays *)

Definition spectral : Type := list complex.
Definition grid : Type := list (list Qc).

(** [vrt.shape] of a two-dimensional array. *)
Definition shape (g : grid) : nat * nat := (length g, length (hd [] g)).

(** [np.zeros([nlat, nlon])], [np.zeros([nspec])], [np.zeros_like(v)]. *)
Definition grid_zeros (nlat nlon : nat) : grid := replicate nlat (replicate nlon 0).
Definition spec_zeros (nspec : nat) : spectral := replicate nspec C0.
Definition zeros_like (v : spectral) : spectral := spec_zeros (length v).

(** Element-wise operations on spectral vectors. *)
Definition vadd : spectral -> spectral -> spectral := zip_with Cadd.
Definition vsub : spectral -> spectral -> spectral := zip_with Csub.
(** float scalar times complex array *)
Definition smul (r : Qc) (v : spectral) : spectral := Cmul (of_real r) <$> v.
(** float array times complex array *)
Definition rcmul (r : list Qc) (v : spectral) : spectral :=
  zip_with (fun x z => Cmul (of_real x) z) r v.

(** Element-wise operations on grid fields; [col_add] is the broadcast sum of
    a column of shape (nlat, 1) and a field of shape (nlat, nlon). *)
Definition col_add (c : list Qc) (g : grid) : grid :=
  zip_with (fun x row => Qcplus x <$> row) c g.
Definition gmul : grid -> grid -> grid := zip_with (zip_with Qcmult).
Definition gneg (g : grid) : grid := (fun row : list Qc => Qcopp <$> row) <$> g.

(** [buf[:] = val] on arrays of one shape: the values of [val] are copied
    into the buffer, which keeps its identity (no two attributes alias). *)
Definition assign {A : Type} (buf val : list A) : list A := val.

(** ** The transform engine interface *)

Record TransformsEngine : Type := {
  radius : Qc;
  grid_to_spec : grid -> spectral;
  spec_to_grid : spectral -> grid;
  uv_grid_from_vrtdiv_spec : spectral -> spectral -> grid * grid;
  vrtdiv_spec_from_uv_grid : grid -> grid -> spectral * spectral;
  wavenumbers : list Z * list Z;
  grid_latlon : list Qc * list Qc
}.

(** ** The model object *)

Definition datetime : Type := Z.

Record BarotropicModel : Type := {
  nlat : nat;
  nlon : nat;
  robert_coefficient : Qc;
  engine : TransformsEngine;
  damping : list Qc;
  u_grid : grid;
  v_grid : grid;
  vrt_grid : grid;
  vrt_spec : spectral;
  vrt_spec_prev : spectral;
  f : list Qc;
  start_time : datetime;
  t : Qc;
  dt : Qc;
  first_step : bool
}.

(** Attribute updates.  The array attributes are always written in place,
    [self.x[:] = val]; [t] and [first_step] are rebound. *)
Definition set_u_grid (self : BarotropicModel) (val : grid) : BarotropicModel :=
  {| nlat := nlat self; nlon := nlon self;
     robert_coefficient := robert_coefficient self;
     engine := engine self; damping := damping self;
     u_grid := assign (u_grid self) val;
     v_grid := v_grid self; vrt_grid := vrt_grid self;
     vrt_spec := vrt_spec self; vrt_spec_prev := vrt_spec_prev self;
     f := f self; start_time := start_time self;
     t := t self; dt := dt self; first_step := first_step self |}.

Definition set_v_grid (self : BarotropicModel) (val : grid) : BarotropicModel :=
  {| nlat := nlat self; nlon := nlon self;
     robert_coefficient := robert_coefficient self;
     engine := engine self; damping := damping self;
     u_grid := u_grid self;
     v_grid := assign (v_grid self) val; vrt_grid := vrt_grid self;
     vrt_spec := vrt_spec self; vrt_spec_prev := vrt_spec_prev self;
     f := f self; start_time := start_time self;
     t := t self; dt := dt self; first_step := first_step self |}.

Definition set_vrt_grid (self : BarotropicModel) (val : grid) : BarotropicModel :=
  {| nlat := nlat self; nlon := nlon self;
     robert_coefficient := robert_coefficient self;
     engine := engine self; damping := damping self;
     u_grid := u_grid self;
     v_grid := v_grid self; vrt_grid := assign (vrt_grid self) val;
     vrt_spec := vrt_spec self; vrt_spec_prev := vrt_spec_prev self;
     f := f self; start_time := start_time self;
     t := t self; dt := dt self; first_step := first_step self |}.

Definition set_vrt_spec (self : BarotropicModel) (val : spectral) : BarotropicModel :=
  {| nlat := nlat self; nlon := nlon self;
     robert_coefficient := robert_coefficient self;
     engine := engine self; damping := damping self;
     u_grid := u_grid self;
     v_grid := v_grid self; vrt_grid := vrt_grid self;
     vrt_spec := assign (vrt_spec self) val; vrt_spec_prev := vrt_spec_prev self;
     f := f self; start_time := start_time self;
     t := t self; dt := dt self; first_step := first_step self |}.

Definition set_vrt_spec_prev (self : BarotropicModel) (val : spectral) : BarotropicModel :=
  {| nlat := nlat self; nlon := nlon self;
     robert_coefficient := robert_coefficient self;
     engine := engine self; damping := damping self;
     u_grid := u_grid self;
     v_grid := v_grid self; vrt_grid := vrt_grid self;
     vrt_spec := vrt_spec self; vrt_spec_prev := assign (vrt_spec_prev self) val;
     f := f self; start_time := start_time self;
     t := t self; dt := dt self; first_step := first_step self |}.

Definition set_t (self : BarotropicModel) (val : Qc) : BarotropicModel :=
  {| nlat := nlat self; nlon := nlon self;
     robert_coefficient := robert_coefficient self;
     engine := engine self; damping := damping self;
     u_grid := u_grid self;
     v_grid := v_grid self; vrt_grid := vrt_grid self;
     vrt_spec := vrt_spec self; vrt_spec_prev := vrt_spec_prev self;
     f := f self; start_time := start_time self;
     t := val; dt := dt self; first_step := first_step self |}.

Definition set_first_step (self : BarotropicModel) (val : bool) : BarotropicModel :=
  {| nlat := nlat self; nlon := nlon self;
     robert_coefficient := robert_coefficient self;
     engine := engine self; damping := damping self;
     u_grid := u_grid self;
     v_grid := v_grid self; vrt_grid := vrt_grid self;
     vrt_spec := vrt_spec self; vrt_spec_prev := vrt_spec_prev self;
     f := f self; start_time := start_time self;
     t := t self; dt := dt self; first_step := val |}.

(** ** [set_state] *)

Definition set_state (self : BarotropicModel) (vrt : grid) : BarotropicModel :=
  let self := set_vrt_spec self (grid_to_spec (engine self) vrt) in
  let self := set_vrt_grid self (spec_to_grid (engine self) (vrt_spec self)) in
  let uv := uv_grid_from_vrtdiv_spec (engine self) (vrt_spec self)
                                     (zeros_like (vrt_spec self)) in
  let self := set_u_grid self (fst uv) in
  let self := set_v_grid self (snd uv) in
  set_vrt_spec_prev self (vrt_spec self).

(** ** Construction *)

(** [el = (m + n) * (m + n + 1) / float(radius) ** 2], one entry and the array. *)
Definition eigenvalue (r : Qc) (m n : Z) : Qc :=
  Qc_of_Z ((m + n) * (m + n + 1)) / r ^ 2.

Definition laplacian_eigenvalues (e : TransformsEngine) : list Qc :=
  zip_with (eigenvalue (radius e)) (fst (wavenumbers e)) (snd (wavenumbers e)).

(** [damping_coefficient * (el / el[truncation]) ** damping_order];
    [None] is the IndexError of [el[truncation]]. *)
Definition damping_coefficients (e : TransformsEngine) (truncation : nat)
    (damping_coefficient : Qc) (damping_order : nat) : option (list Qc) :=
  let el := laplacian_eigenvalues e in
  el_T ← el !! truncation;
  Some ((fun x => damping_coefficient * (x / el_T) ^ damping_order) <$> el).

Section Construction.
(** The constructor of the engine class and numpy's sine of an angle in
    degrees, [np.sin(np.deg2rad(x))]. *)
Variable new_engine : nat -> nat -> nat -> TransformsEngine.
Variable sin_deg2rad : Qc -> Qc.

(** [__init__].  The truncation and the damping order are natural numbers;
    the optional arguments are passed explicitly.  The code calls
    [set_state] before it binds [f], [start_time], [t], [dt] and
    [first_step]; [set_state] reads the engine and writes the five field
    buffers only, so the order of the two is immaterial. *)
Definition init (vrt : grid) (truncation : nat) (dt0 : Qc)
    (start_time0 : datetime) (robert_coefficient0 damping_coefficient : Qc)
    (damping_order : nat) : option BarotropicModel :=
  let '(nlat0, nlon0) := shape vrt in
  let e := new_engine nlon0 nlat0 truncation in
  damping0 ← damping_coefficients e truncation damping_coefficient damping_order;
  let nspec := ((truncation + 1) * (truncation + 2) / 2)%nat in
  let lats := fst (grid_latlon e) in
  Some (set_state
          {| nlat := nlat0; nlon := nlon0;
             robert_coefficient := robert_coefficient0;
             engine := e; damping := damping0;
             u_grid := grid_zeros nlat0 nlon0;
             v_grid := grid_zeros nlat0 nlon0;
             vrt_grid := grid_zeros nlat0 nlon0;
             vrt_spec := spec_zeros nspec;
             vrt_spec_prev := spec_zeros nspec;
             f := (fun x => 2 * OMEGA * sin_deg2rad x) <$> lats;
             start_time := start_time0;
             t := 0; dt := dt0; first_step := true |}
          vrt).
End Construction.

(** ** [step_forward] *)

(** The local [dt]: one time step on the first call, two afterwards. *)
Definition effective_dt (self : BarotropicModel) : Qc :=
  if first_step self then dt self else 2 * dt self.

(** The spectral vorticity tendency of the advection of absolute vorticity
    (the first [dzetadt]). *)
Definition forcing (self : BarotropicModel) : spectral :=
  let dudt := gmul (col_add (f self) (vrt_grid self)) (v_grid self) in
  let dvdt := gmul (gneg (col_add (f self) (vrt_grid self))) (u_grid self) in
  fst (vrtdiv_spec_from_uv_grid (engine self) dudt dvdt).

(** [coeffs = 1. / (1. + self.damping * self.dt)] *)
Definition coeffs (self : BarotropicModel) : list Qc :=
  (fun d => 1 / (1 + d * dt self)) <$> damping self.

(** The second [dzetadt], the tendency the integrator uses. *)
Definition damped_tendency (self : BarotropicModel) : spectral :=
  rcmul (coeffs self)
        (vsub (forcing self) (rcmul (damping self) (vrt_spec_prev self))).

Definition step_forward (self : BarotropicModel) : BarotropicModel :=
  let dt_ := effective_dt self in
  let dzetadt := damped_tendency self in
  let '(self, new_vrt_spec) :=
    if first_step self then
      (* forward difference *)
      let new_vrt_spec := vadd (vrt_spec self) (smul dt_ dzetadt) in
      let self :=
        set_vrt_spec self
          (vadd (vrt_spec self)
                (smul (robert_coefficient self) (vsub new_vrt_spec (vrt_spec self)))) in
      let self := set_first_step self false in
      (self, new_vrt_spec)
    else
      (* leapfrog *)
      let self :=
        set_vrt_spec self
          (vadd (vrt_spec self)
                (smul (robert_coefficient self)
                      (vsub (vrt_spec_prev self) (smul 2 (vrt_spec self))))) in
      let new_vrt_spec := vadd (vrt_spec_prev self) (smul dt_ dzetadt) in
      let self :=
        set_vrt_spec self
          (vadd (vrt_spec self) (smul (robert_coefficient self) new_vrt_spec)) in
      (self, new_vrt_spec) in
  let self := set_vrt_spec_prev self (vrt_spec self) in
  let self := set_vrt_spec self new_vrt_spec in
  let self := set_vrt_grid self (spec_to_grid (engine self) new_vrt_spec) in
  let uv := uv_grid_from_vrtdiv_spec (engine self) new_vrt_spec (zeros_like new_vrt_spec) in
  let self := set_u_grid self (fst uv) in
  let self := set_v_grid self (snd uv) in
  set_t self (t self + dt self).

(** ** [run_with_snapshots] *)

Inductive exn : Type := ZeroDivisionError.

(** What running a piece of code gives: a result, a Python exception, or no
    answer within the given number of loop iterations. *)
Inductive outcome (A : Type) : Type :=
  | Done (a : A)
  | Raised (e : exn)
  | OutOfFuel.
Arguments Done {A} a.
Arguments Raised {A} e.
Arguments OutOfFuel {A}.

(** The generator run to exhaustion: the values it yields, in order, each
    with the value of the loop counter [n] at that [yield]; the number of
    [step_forward] calls it made; the model it leaves behind. *)
Record run : Type := {
  yields : list (Z * Qc);
  calls : nat;
  final : BarotropicModel
}.

Definition stepped (o : outcome run) : outcome run :=
  match o with
  | Done r => Done {| yields := yields r; calls := S (calls r); final := final r |}
  | Raised e => Raised e
  | OutOfFuel => OutOfFuel
  end.

Definition yielding (y : Z * Qc) (o : outcome run) : outcome run :=
  match o with
  | Done r => Done {| yields := y :: yields r; calls := calls r; final := final r |}
  | Raised e => Raised e
  | OutOfFuel => OutOfFuel
  end.

(** The [while n <= target_steps] loop, entered with counter [n]. *)
Fixpoint snapshot_loop (fuel : nat) (target_steps step_interval : Z)
    (snapshot_start : Qc) (n : Z) (self : BarotropicModel) : outcome run :=
  match fuel with
  | O => OutOfFuel
  | S fuel' =>
    if (n <=? target_steps)%Z then
      let self1 := step_forward self in
      let n1 := (n + 1)%Z in
      let rest := snapshot_loop fuel' target_steps step_interval snapshot_start n1 self1 in
      if bool_decide (snapshot_start < t self1) then
        if (step_interval =? 0)%Z then Raised ZeroDivisionError
        else if (n1 mod step_interval =? 0)%Z
             then stepped (yielding (n1, t self1) rest)
             else stepped rest
      else stepped rest
    else Done {| yields := []; calls := 0; final := self |}
  end.

(** [snapshot_interval or self.dt], then the floor at one time step. *)
Definition effective_interval (self : BarotropicModel)
    (snapshot_interval : option Qc) : Qc :=
  let si := match snapshot_interval with
            | Some x => if bool_decide (x = 0) then dt self else x
            | None => dt self
            end in
  if bool_decide (si < dt self) then dt self else si.

Definition target_steps_of (self : BarotropicModel) (run_time : Qc) : Z :=
  Qceiling ((t self + run_time) / dt self)%Qc.

Definition step_interval_of (self : BarotropicModel)
    (snapshot_interval : option Qc) : Z :=
  Qceiling (effective_interval self snapshot_interval / dt self)%Qc.

Definition run_with_snapshots (fuel : nat) (self : BarotropicModel)
    (run_time snapshot_start : Qc) (snapshot_interval : option Qc) : outcome run :=
  if bool_decide (dt self = 0) then Raised ZeroDivisionError
  else snapshot_loop fuel (target_steps_of self run_time)
                     (step_interval_of self snapshot_interval)
                     snapshot_start 0 self.

(** ** Sequences of public operations *)

Inductive op : Type :=
  | StepForward
  | SetState (vrt : grid).

Definition apply_op (self : BarotropicModel) (o : op) : BarotropicModel :=
  match o with
  | StepForward => step_forward self
  | SetState vrt => set_state self vrt
  end.

Definition apply_ops (self : BarotropicModel) (os : list op) : BarotropicModel :=
  foldl apply_op self os.

(** [n] calls of [step_forward]. *)
Definition steps (n : nat) (self : BarotropicModel) : BarotropicModel :=
  Nat.iter n step_forward self.

(** ** A transform engine to run the model on *)

(** Modelled from the spec: the wavenumber table of the engine, which is
    outside the model's source.  Section 3 fixes a triangular truncation of
    size (T+1)(T+2)/2 and section 6 gives [wavenumbers()] as the zonal and
    total wavenumber of each spectral index; the pairs are listed here by
    zonal wavenumber, then by total wavenumber. *)
Definition triangular_wavenumbers (T : nat) : list Z * list Z :=
  let pairs :=
    mbind (fun m => (fun n => (Z.of_nat m, Z.of_nat n)) <$> seq m (S T - m))
          (seq 0 (S T)) in
  (fst <$> pairs, snd <$> pairs).

(** Modelled from the spec: the zero-forcing engine of section 8, which
    leaves fields unchanged: the spectral vector holds the first grid values,
    winds and tendencies are zero. *)
Definition stub_engine (nlon0 nlat0 truncation : nat) : TransformsEngine :=
  let nspec := ((truncation + 1) * (truncation + 2) / 2)%nat in
  {| radius := Qc_of_Z 6371200;
     grid_to_spec := fun g => resize nspec C0 (of_real <$> concat g);
     spec_to_grid := fun s =>
       (fun i => resize nlon0 0 (re <$> drop (i * nlon0) s)) <$> seq 0 nlat0;
     uv_grid_from_vrtdiv_spec := fun _ _ =>
       (grid_zeros nlat0 nlon0, grid_zeros nlat0 nlon0);
     vrtdiv_spec_from_uv_grid := fun _ _ => (spec_zeros nspec, spec_zeros nspec);
     wavenumbers := triangular_wavenumbers truncation;
     grid_latlon := (replicate nlat0 0, replicate nlon0 0) |}.

Definition stub_sin (x : Qc) : Qc := 0.

(** A 2 x 4 initial field, truncation 3, a time step of ten seconds and the
    default filter and damping parameters. *)
Definition demo_vrt : grid :=
  [ [Qc_of_Z 1; Qc_of_Z 2; Qc_of_Z 3; Qc_of_Z 4];
    [Qc_of_Z 5; Qc_of_Z 6; Qc_of_Z 7; Qc_of_Z 8] ].

Definition demo_init : option BarotropicModel :=
  init stub_engine stub_sin demo_vrt 3 (Qc_of_Z 10) 0%Z
       (Qc_of_Z 4 / Qc_of_Z 100) (1 / Qc_of_Z 10000) 4.

Definition demo_model : BarotropicModel :=
  default (set_state
             {| nlat := 0; nlon := 0; robert_coefficient := 0;
                engine := stub_engine 0 0 0; damping := [];
                u_grid := []; v_grid := []; vrt_grid := [];
                vrt_spec := []; vrt_spec_prev := []; f := [];
                start_time := 0%Z; t := 0; dt := 0; first_step := true |} [])
          demo_init.

(** ** Statements of the specification *)

(** The grid fields agree with the current spectral vorticity. *)
Definition consistent (self : BarotropicModel) : Prop :=
  vrt_grid self = spec_to_grid (engine self) (vrt_spec self) /\
  (u_grid self, v_grid self) =
    uv_grid_from_vrtdiv_spec (engine self) (vrt_spec self) (zeros_like (vrt_spec self)).

(** Section 4.4, one spectral index:
    [tendency' = (1/(1+damping*dt)) * (tendency - damping * vrt_spec_prev)]. *)
Definition spec_damped (d dt0 : Qc) (tendency prev : complex) : complex :=
  Cmul (of_real (1 / (1 + d * dt0))) (Csub tendency (Cmul (of_real d) prev)).

(** Section 4.5, the leapfrog update [new = previous + 2*dt*tendency']. *)
Definition spec_leapfrog (dt0 : Qc) (previous tendency : spectral) : spectral :=
  vadd previous (smul (2 * dt0) tendency).


(** Section 4.5, the first step: [new = current + dt*tendency'] and
    [current + robert_coefficient * (new - current)]. *)
Definition spec_forward (dt0 : Qc) (current tendency : spectral) : spectral :=
  vadd current (smul dt0 tendency).

Definition spec_first_filter (r : Qc) (current new : spectral) : spectral :=
  vadd current (smul r (vsub new current)).

(** Section 8, damping monotonicity: the coefficient does not decrease with
    the total wavenumber [n], and at total wavenumber [truncation] it is the
    configured damping coefficient. *)
Definition spec_damping_monotone (self : BarotropicModel) : Prop :=
  forall (i j : nat) (n1 n2 : Z) (d1 d2 : Qc),
    snd (wavenumbers (engine self)) !! i = Some n1 ->
    snd (wavenumbers (engine self)) !! j = Some n2 ->
    damping self !! i = Some d1 ->
    damping self !! j = Some d2 ->
    (n1 < n2)%Z -> d1 <= d2.

Definition spec_damping_at_truncation (self : BarotropicModel)
    (truncation : nat) (damping_coefficient : Qc) : Prop :=
  forall (i : nat) (d : Qc),
    snd (wavenumbers (engine self)) !! i = Some (Z.of_nat truncation) ->
    damping self !! i = Some d ->
    d = damping_coefficient.

(** ** The snapshots in closed form *)

(** The loop entered with counter [n] on a clock reading [b + n * dt] runs
    the counter values [n+1 .. target_steps+1]; it yields at the values [k]
    that are multiples of [step_interval] and whose clock reading
    [b + k * dt] exceeds [snapshot_start]. *)
Definition loop_snapshots (target_steps step_interval : Z)
    (snapshot_start b dt0 : Qc) (n : Z) : list (Z * Qc) :=
  (fun k => (k, b + Qc_of_Z k * dt0)) <$>
  filter (fun k => snapshot_start < b + Qc_of_Z k * dt0 /\ (k mod step_interval)%Z = 0%Z)
         (seqZ (n + 1) (target_steps + 1 - n)).

(** ** [valid_time] *)

Section ValidTime.
(** [d + timedelta(seconds=s)] of the datetime module. *)
Variable plus_seconds : datetime -> Qc -> datetime.

End ValidTime.

(** ** Vocabulary for the properties of the code *)

(** The number of [step_forward] calls in a sequence of operations. *)
Fixpoint count_steps (os : list op) : nat :=
  match os with
  | [] => O
  | StepForward :: os' => S (count_steps os')
  | SetState _ :: os' => count_steps os'
  end.

(** The shapes the engine gives its spectral results: [N] coefficients. *)
Record engine_shapes (e : TransformsEngine) (N : nat) : Prop := {
  shape_grid_to_spec : forall g, length (grid_to_spec e g) = N;
  shape_tendency : forall u v, length (fst (vrtdiv_spec_from_uv_grid e u v)) = N;
  shape_wavenumbers_m : length (fst (wavenumbers e)) = N;
  shape_wavenumbers_n : length (snd (wavenumbers e)) = N
}.

(** The spectral buffers and the damping vector have [N] entries. *)
Definition well_shaped (N : nat) (self : BarotropicModel) : Prop :=
  length (vrt_spec self) = N /\
  length (vrt_spec_prev self) = N /\
  length (damping self) = N.





(** * Properties *)

(** ** Arithmetic of the scalars *)

Lemma complex_eq (a b : complex) : re a = re b -> im a = im b -> a = b.
Proof. destruct a, b; simpl; intros -> ->; reflexivity. Qed.

Lemma complex_ring_theory : ring_theory C0 C1 Cadd Cmul Csub Copp eq.
Proof.
  split; intros; apply complex_eq; simpl; ring.
Qed.

Add Ring complex_ring : complex_ring_theory.

(** Equality of closed rationals, by their fractions. *)

Ltac qc_eq := apply Qc_is_canon; vm_compute; reflexivity.
Ltac some_qc_eq := vm_compute; apply (f_equal Some); apply Qc_is_canon; reflexivity.
Ltac some_complex_eq :=
  vm_compute; apply (f_equal Some); apply complex_eq; apply Qc_is_canon; reflexivity.

(** ** What each operation writes *)

Lemma step_forward_t self : t (step_forward self) = t self + dt self.
Proof. unfold step_forward. destruct (first_step self); reflexivity. Qed.

Lemma step_forward_dt self : dt (step_forward self) = dt self.
Proof. unfold step_forward. destruct (first_step self); reflexivity. Qed.

Lemma step_forward_first_step self : first_step (step_forward self) = false.
Proof. unfold step_forward. destruct (first_step self) eqn:E; [reflexivity | exact E]. Qed.

(** What the forward-difference branch leaves in the two spectral levels. *)
Lemma step_forward_first self :
  first_step self = true ->
  vrt_spec (step_forward self) =
    vadd (vrt_spec self) (smul (dt self) (damped_tendency self)) /\
  vrt_spec_prev (step_forward self) =
    vadd (vrt_spec self)
         (smul (robert_coefficient self)
               (vsub (vrt_spec (step_forward self)) (vrt_spec self))).
Proof. intros Hfs. unfold step_forward, effective_dt. rewrite Hfs. split; reflexivity. Qed.

(** What the leapfrog branch leaves in the two spectral levels. *)
Lemma step_forward_later self :
  first_step self = false ->
  vrt_spec (step_forward self) =
    vadd (vrt_spec_prev self) (smul (2 * dt self) (damped_tendency self)) /\
  vrt_spec_prev (step_forward self) =
    vadd (vadd (vrt_spec self)
               (smul (robert_coefficient self)
                     (vsub (vrt_spec_prev self) (smul 2 (vrt_spec self)))))
         (smul (robert_coefficient self) (vrt_spec (step_forward self))).
Proof. intros Hfs. unfold step_forward, effective_dt. rewrite Hfs. split; reflexivity. Qed.

Lemma step_forward_frame self :
  nlat (step_forward self) = nlat self /\
  nlon (step_forward self) = nlon self /\
  robert_coefficient (step_forward self) = robert_coefficient self /\
  engine (step_forward self) = engine self /\
  damping (step_forward self) = damping self /\
  f (step_forward self) = f self /\
  start_time (step_forward self) = start_time self.
Proof. unfold step_forward. destruct (first_step self); repeat split. Qed.

Lemma steps_S n self : steps (S n) self = step_forward (steps n self).
Proof. reflexivity. Qed.

Lemma steps_dt n self : dt (steps n self) = dt self.
Proof. induction n as [|n IH]; [reflexivity|]. rewrite steps_S, step_forward_dt. exact IH. Qed.

Lemma steps_t n self : t (steps n self) = t self + Qc_of_Z (Z.of_nat n) * dt self.
Proof.
  induction n as [|n IH].
  - change (steps 0 self) with self. change (Z.of_nat 0) with 0%Z.
    rewrite Z2Qc_inj_0. ring.
  - rewrite steps_S, step_forward_t, steps_dt, IH.
    rewrite Nat2Z.inj_succ, <- Z.add_1_r, Z2Qc_inj_add, Z2Qc_inj_1. ring.
Qed.

Lemma steps_first_step n self :
  first_step (steps n self) = match n with O => first_step self | S _ => false end.
Proof. destruct n; [reflexivity|]. rewrite steps_S. apply step_forward_first_step. Qed.

Section AfterConstruction.
Variable new_engine : nat -> nat -> nat -> TransformsEngine.
Variable sin_deg2rad : Qc -> Qc.

(** The time control attributes and the configuration of a new model. *)
Lemma init_clock vrt T dt0 st rc dc ord self :
  init new_engine sin_deg2rad vrt T dt0 st rc dc ord = Some self ->
  t self = 0 /\ dt self = dt0 /\ first_step self = true /\
  robert_coefficient self = rc /\ start_time self = st /\
  engine self = new_engine (snd (shape vrt)) (fst (shape vrt)) T /\
  damping_coefficients (engine self) T dc ord = Some (damping self).
Proof.
  unfold init. destruct (shape vrt) as [a b]. simpl.
  destruct (damping_coefficients _ T dc ord) as [d|] eqn:E; simpl; [|discriminate].
  intros [= <-]. simpl. rewrite E. repeat split.
Qed.

(** A new model is [set_state] applied to the zeroed buffers. *)
Lemma init_fields vrt T dt0 st rc dc ord self :
  init new_engine sin_deg2rad vrt T dt0 st rc dc ord = Some self ->
  vrt_spec self = grid_to_spec (engine self) vrt /\
  vrt_spec_prev self = vrt_spec self /\
  vrt_grid self = spec_to_grid (engine self) (vrt_spec self) /\
  (u_grid self, v_grid self) =
    uv_grid_from_vrtdiv_spec (engine self) (vrt_spec self) (zeros_like (vrt_spec self)).
Proof.
  unfold init. destruct (shape vrt) as [a b]. simpl.
  destruct (damping_coefficients _ T dc ord) as [d|]; simpl; [|discriminate].
  intros [= <-]. simpl. unfold assign. repeat split.
  symmetry. apply surjective_pairing.
Qed.

(** Construction succeeds as soon as the wavenumber table has an entry at
    index [truncation]. *)
Lemma init_succeeds vrt T dt0 st rc dc ord :
  let e := new_engine (snd (shape vrt)) (fst (shape vrt)) T in
  (T < length (fst (wavenumbers e)))%nat ->
  (T < length (snd (wavenumbers e)))%nat ->
  is_Some (init new_engine sin_deg2rad vrt T dt0 st rc dc ord).
Proof.
  intros e Hm Hn. unfold init. destruct (shape vrt) as [a b]. simpl in *.
  unfold damping_coefficients, laplacian_eigenvalues.
  destruct (lookup_lt_is_Some_2 _ _ Hm) as [m Em].
  destruct (lookup_lt_is_Some_2 _ _ Hn) as [n En].
  subst e. rewrite lookup_zip_with, Em. simpl. rewrite En. simpl. eauto.
Qed.
End AfterConstruction.

(** ** The clock *)


Lemma demo_init_eq : demo_init = Some demo_model.
Proof. vm_compute. reflexivity. Qed.


(** ** Consistency of the grid fields *)

Lemma set_state_consistent self vrt : consistent (set_state self vrt).
Proof. split; [reflexivity|]. simpl. unfold assign. symmetry. apply surjective_pairing. Qed.

Lemma step_forward_consistent self : consistent (step_forward self).
Proof.
  unfold step_forward.
  destruct (first_step self); (split; [reflexivity|]); simpl; unfold assign;
    symmetry; apply surjective_pairing.
Qed.

Lemma apply_op_consistent self o : consistent (apply_op self o).
Proof. destruct o; [apply step_forward_consistent | apply set_state_consistent]. Qed.

(** C8: after construction and after every later [set_state] or
    [step_forward], the grid vorticity is [spec_to_grid] of the current
    spectral vorticity and the wind is [uv_grid_from_vrtdiv_spec] of it and a
    zero divergence. *)
Theorem grid_fields_consistent new_engine sin_deg2rad vrt T dt0 st rc dc ord self
    (os : list op) :
  init new_engine sin_deg2rad vrt T dt0 st rc dc ord = Some self ->
  consistent (apply_ops self os).
Proof.
  intros Hinit.
  assert (H0 : consistent self).
  { destruct (init_fields _ _ _ _ _ _ _ _ _ _ Hinit) as (_ & _ & Hg & Huv). split; assumption. }
  clear Hinit. revert self H0. unfold apply_ops.
  induction os as [|o os IH]; intros self H0; simpl; [exact H0|].
  apply IH, apply_op_consistent.
Qed.

Lemma grid_fields_consistent_witness :
  consistent (apply_ops demo_model [StepForward; SetState demo_vrt; StepForward]).
Proof.
  apply (grid_fields_consistent stub_engine stub_sin demo_vrt 3 (Qc_of_Z 10) 0%Z
           (Qc_of_Z 4 / Qc_of_Z 100) (1 / Qc_of_Z 10000) 4).
  exact demo_init_eq.
Defined.

(** ** The initial state *)

(** C9: right after construction from a field [vrt], and after a call
    [set_state(g)] at any later point, the stored grid vorticity is the
    truncated round trip [spec_to_grid(grid_to_spec(.))] of the field given,
    and the previous spectral level equals the current one. *)
Theorem initial_state_round_trip new_engine sin_deg2rad vrt T dt0 st rc dc ord self
    (os : list op) (g : grid) :
  init new_engine sin_deg2rad vrt T dt0 st rc dc ord = Some self ->
  (vrt_grid self = spec_to_grid (engine self) (grid_to_spec (engine self) vrt) /\
   vrt_spec_prev self = vrt_spec self) /\
  (let self' := set_state (apply_ops self os) g in
   vrt_grid self' = spec_to_grid (engine self') (grid_to_spec (engine self') g) /\
   vrt_spec_prev self' = vrt_spec self').
Proof.
  intros Hinit.
  destruct (init_fields _ _ _ _ _ _ _ _ _ _ Hinit) as (Hs & Hp & Hg & _).
  split.
  - split; [rewrite Hg, Hs; reflexivity | exact Hp].
  - split; reflexivity.
Qed.

Lemma initial_state_round_trip_witness :
  (vrt_grid demo_model =
     spec_to_grid (engine demo_model) (grid_to_spec (engine demo_model) demo_vrt) /\
   vrt_spec_prev demo_model = vrt_spec demo_model) /\
  (let self' := set_state (apply_ops demo_model [StepForward]) [[1; 0; 0; 0]; [0; 0; 0; 1]] in
   vrt_grid self' =
     spec_to_grid (engine self') (grid_to_spec (engine self') [[1; 0; 0; 0]; [0; 0; 0; 1]]) /\
   vrt_spec_prev self' = vrt_spec self').
Proof.
  apply (initial_state_round_trip stub_engine stub_sin demo_vrt 3 (Qc_of_Z 10) 0%Z
           (Qc_of_Z 4 / Qc_of_Z 100) (1 / Qc_of_Z 10000) 4).
  exact demo_init_eq.
Defined.

(** ** The frame of [set_state] *)

Lemma set_state_frame self vrt :
  nlat (set_state self vrt) = nlat self /\
  nlon (set_state self vrt) = nlon self /\
  robert_coefficient (set_state self vrt) = robert_coefficient self /\
  engine (set_state self vrt) = engine self /\
  damping (set_state self vrt) = damping self /\
  f (set_state self vrt) = f self /\
  start_time (set_state self vrt) = start_time self /\
  t (set_state self vrt) = t self /\
  dt (set_state self vrt) = dt self /\
  first_step (set_state self vrt) = first_step self.
Proof. repeat split. Qed.



(** ** The two integration formulas *)

(** C2: the first [step_forward] of a new model uses the effective step [dt]
    and the forward difference [new = current + dt * tendency'], leaves
    [current + robert_coefficient * (new - current)] as the previous level
    and clears the flag; every later call uses the effective step [2 * dt]
    and the leapfrog formula. *)
Theorem first_step_then_leapfrog new_engine sin_deg2rad vrt T dt0 st rc dc ord self
    (n : nat) :
  init new_engine sin_deg2rad vrt T dt0 st rc dc ord = Some self ->
  first_step self = true /\
  effective_dt self = dt0 /\
  vrt_spec (step_forward self) = spec_forward dt0 (vrt_spec self) (damped_tendency self) /\
  vrt_spec_prev (step_forward self) =
    spec_first_filter rc (vrt_spec self) (vrt_spec (step_forward self)) /\
  first_step (step_forward self) = false /\
  (let later := steps (S n) self in
   first_step later = false /\
   effective_dt later = 2 * dt0 /\
   vrt_spec (step_forward later) =
     spec_leapfrog dt0 (vrt_spec_prev later) (damped_tendency later)).
Proof.
  intros Hinit.
  destruct (init_clock _ _ _ _ _ _ _ _ _ _ Hinit) as (Ht & Hdt & Hfs & Hrc & _).
  assert (He : effective_dt self = dt0) by (unfold effective_dt; rewrite Hfs; exact Hdt).
  destruct (step_forward_first self Hfs) as [Hnew Hprev].
  assert (Hlater : first_step (steps (S n) self) = false) by apply steps_first_step.
  repeat split.
  - exact Hfs.
  - exact He.
  - rewrite Hnew, Hdt. reflexivity.
  - rewrite Hprev, Hrc. reflexivity.
  - apply step_forward_first_step.
  - exact Hlater.
  - unfold effective_dt. rewrite Hlater, steps_dt, Hdt. reflexivity.
  - destruct (step_forward_later _ Hlater) as [-> _]. rewrite steps_dt, Hdt. reflexivity.
Qed.

Lemma first_step_then_leapfrog_witness :
  first_step demo_model = true /\
  effective_dt demo_model = Qc_of_Z 10 /\
  vrt_spec (step_forward demo_model) =
    spec_forward (Qc_of_Z 10) (vrt_spec demo_model) (damped_tendency demo_model) /\
  vrt_spec_prev (step_forward demo_model) =
    spec_first_filter (Qc_of_Z 4 / Qc_of_Z 100) (vrt_spec demo_model)
                      (vrt_spec (step_forward demo_model)) /\
  first_step (step_forward demo_model) = false /\
  (let later := steps (S 1) demo_model in
   first_step later = false /\
   effective_dt later = 2 * Qc_of_Z 10 /\
   vrt_spec (step_forward later) =
     spec_leapfrog (Qc_of_Z 10) (vrt_spec_prev later) (damped_tendency later)).
Proof.
  apply (first_step_then_leapfrog stub_engine stub_sin demo_vrt 3 (Qc_of_Z 10) 0%Z
           (Qc_of_Z 4 / Qc_of_Z 100) (1 / Qc_of_Z 10000) 4 demo_model 1).
  exact demo_init_eq.
Defined.

(** ** Implicit damping *)

(** C3: on every call the tendency the integrator adds is, at each spectral
    index, [(1/(1+damping*dt)) * (tendency - damping * vrt_spec_prev)] with
    the model's time step [dt] (not the effective step), the damping
    coefficient of that index and the previous spectral level. *)
Theorem damped_tendency_elementwise (self : BarotropicModel) (i : nat)
    (d : Qc) (z p : complex) :
  damping self !! i = Some d ->
  forcing self !! i = Some z ->
  vrt_spec_prev self !! i = Some p ->
  damped_tendency self !! i = Some (spec_damped d (dt self) z p) /\
  vrt_spec (step_forward self) =
    vadd (if first_step self then vrt_spec self else vrt_spec_prev self)
         (smul (effective_dt self) (damped_tendency self)).
Proof.
  intros Hd Hz Hp. split.
  - unfold damped_tendency, rcmul, vsub, coeffs, spec_damped, spectral in *.
    rewrite lookup_zip_with, list_lookup_fmap, Hd. simpl.
    rewrite lookup_zip_with, Hz. simpl.
    rewrite lookup_zip_with, Hd. simpl. rewrite Hp. reflexivity.
  - unfold effective_dt. destruct (first_step self) eqn:Hfs.
    + apply step_forward_first, Hfs.
    + apply step_forward_later, Hfs.
Qed.

Lemma damped_tendency_elementwise_witness :
  damped_tendency demo_model !! 1%nat =
    Some (spec_damped (1 / Qc_of_Z 12960000) (dt demo_model) C0 (of_real (Qc_of_Z 2))) /\
  vrt_spec (step_forward demo_model) =
    vadd (if first_step demo_model then vrt_spec demo_model else vrt_spec_prev demo_model)
         (smul (effective_dt demo_model) (damped_tendency demo_model)).
Proof.
  apply (damped_tendency_elementwise demo_model 1).
  - vm_compute. reflexivity.
  - reflexivity.
  - vm_compute. reflexivity.
Defined.

(** ** The Robert-Asselin filter *)




(** ** The damping coefficients *)

Lemma Qc_square_pos (r : Qc) : r <> 0 -> 0 < r ^ 2.
Proof.
  intros Hr. simpl. rewrite Qcmult_1_r.
  destruct (Qclt_le_dec 0 r) as [Hpos|Hle].
  - apply Qcmult_pos_pos; assumption.
  - assert (Hneg : 0 < - r).
    { destruct (Qcle_lt_or_eq _ _ Hle) as [Hlt|Heq]; [|congruence].
      apply (Qcplus_lt_mono_r _ _ r). ring_simplify. exact Hlt. }
    replace (r * r) with (- r * - r) by ring.
    apply Qcmult_pos_pos; assumption.
Qed.

Lemma eigenvalue_mono (r : Qc) (m1 n1 m2 n2 : Z) :
  r <> 0 -> (0 <= m1 + n1 <= m2 + n2)%Z ->
  0 <= eigenvalue r m1 n1 <= eigenvalue r m2 n2.
Proof.
  intros Hr Hs. unfold eigenvalue, Qcdiv.
  assert (Hinv : 0 <= / r ^ 2) by apply Qclt_le_weak, Qcinv_pos, Qc_square_pos, Hr.
  split.
  - apply Qcmult_nonneg_nonneg; [|exact Hinv].
    rewrite <- Z2Qc_inj_0. apply (proj1 (Z2Qc_inj_le _ _)). nia.
  - apply Qcmult_le_compat_r; [|exact Hinv]. apply (proj1 (Z2Qc_inj_le _ _)). nia.
Qed.

Lemma eigenvalue_pos (r : Qc) (m n : Z) :
  r <> 0 -> (0 < m + n)%Z -> 0 < eigenvalue r m n.
Proof.
  intros Hr Hs. unfold eigenvalue, Qcdiv.
  apply Qcmult_pos_pos; [|apply Qcinv_pos, Qc_square_pos, Hr].
  rewrite <- Z2Qc_inj_0. apply (proj1 (Z2Qc_inj_lt _ _)). nia.
Qed.

Lemma eigenvalue_sum (r : Qc) (m1 n1 m2 n2 : Z) :
  (m1 + n1 = m2 + n2)%Z -> eigenvalue r m1 n1 = eigenvalue r m2 n2.
Proof. intros Hs. unfold eigenvalue. rewrite Hs. reflexivity. Qed.

Lemma Qcpower_le_mono (a b : Qc) (k : nat) : 0 <= a -> a <= b -> a ^ k <= b ^ k.
Proof.
  intros Ha Hab. induction k as [|k IH]; simpl; [apply Qcle_refl|].
  apply Qcle_trans with (a * b ^ k).
  - apply Qcmult_le_mono_nonneg_l; assumption.
  - apply Qcmult_le_compat_r; [exact Hab|].
    apply Qcpower_pos, Qcle_trans with a; assumption.
Qed.

(** The entry of the damping vector at a spectral index. *)
Lemma damping_coefficients_lookup e T dc ord d (i : nat) (m n mT nT : Z) :
  damping_coefficients e T dc ord = Some d ->
  fst (wavenumbers e) !! T = Some mT -> snd (wavenumbers e) !! T = Some nT ->
  fst (wavenumbers e) !! i = Some m -> snd (wavenumbers e) !! i = Some n ->
  d !! i =
    Some (dc * (eigenvalue (radius e) m n / eigenvalue (radius e) mT nT) ^ ord).
Proof.
  unfold damping_coefficients, laplacian_eigenvalues. intros Hd HmT HnT Hm Hn.
  rewrite lookup_zip_with, HmT in Hd. simpl in Hd. rewrite HnT in Hd. simpl in Hd.
  injection Hd as <-.
  rewrite list_lookup_fmap, lookup_zip_with, Hm. simpl. rewrite Hn. reflexivity.
Qed.

(** C4, as the code has it: each damping coefficient is the configured
    coefficient times [(el / el[truncation]) ** damping_order] with
    [el = (m+n)(m+n+1)/R**2]; for a non-negative configured coefficient, a
    non-zero radius and a positive eigenvalue at index [truncation], the
    coefficients do not decrease with the sum [m + n] of the zonal and the
    total wavenumber, and at index [truncation], as at every index with the
    same sum, the coefficient is exactly the configured one. *)
Theorem damping_monotone_in_wavenumber_sum new_engine sin_deg2rad vrt T dt0 st rc dc ord
    self (i j : nat) (m1 n1 m2 n2 mT nT : Z) :
  init new_engine sin_deg2rad vrt T dt0 st rc dc ord = Some self ->
  fst (wavenumbers (engine self)) !! T = Some mT ->
  snd (wavenumbers (engine self)) !! T = Some nT ->
  fst (wavenumbers (engine self)) !! i = Some m1 ->
  snd (wavenumbers (engine self)) !! i = Some n1 ->
  fst (wavenumbers (engine self)) !! j = Some m2 ->
  snd (wavenumbers (engine self)) !! j = Some n2 ->
  radius (engine self) <> 0 ->
  (0 < mT + nT)%Z ->
  0 <= dc ->
  (0 <= m1 + n1 <= m2 + n2)%Z ->
  exists d1 d2 : Qc,
    damping self !! i = Some d1 /\ damping self !! j = Some d2 /\
    d1 = dc * (eigenvalue (radius (engine self)) m1 n1 /
               eigenvalue (radius (engine self)) mT nT) ^ ord /\
    d2 = dc * (eigenvalue (radius (engine self)) m2 n2 /
               eigenvalue (radius (engine self)) mT nT) ^ ord /\
    d1 <= d2 /\
    ((m1 + n1 = mT + nT)%Z -> d1 = dc) /\
    damping self !! T = Some dc.
Proof.
  intros Hinit HmT HnT Hm1 Hn1 Hm2 Hn2 Hr HsT Hdc Hs.
  destruct (init_clock _ _ _ _ _ _ _ _ _ _ Hinit) as (_ & _ & _ & _ & _ & _ & Hd).
  set (r := radius (engine self)) in *.
  assert (HposT : 0 < eigenvalue r mT nT) by (apply eigenvalue_pos; assumption).
  assert (Hinv : 0 < / eigenvalue r mT nT) by (apply Qcinv_pos; exact HposT).
  assert (Hone : forall m n, (m + n = mT + nT)%Z ->
            dc * (eigenvalue r m n / eigenvalue r mT nT) ^ ord = dc).
  { intros m n E. rewrite (eigenvalue_sum r m n mT nT E).
    unfold Qcdiv. rewrite Qcmult_inv_r by (apply not_eq_sym, Qclt_not_eq, HposT).
    rewrite Qcpower_1. ring. }
  destruct (eigenvalue_mono r m1 n1 m2 n2 Hr Hs) as [H0 H12].
  eexists _, _.
  split; [exact (damping_coefficients_lookup _ _ _ _ _ i _ _ _ _ Hd HmT HnT Hm1 Hn1)|].
  split; [exact (damping_coefficients_lookup _ _ _ _ _ j _ _ _ _ Hd HmT HnT Hm2 Hn2)|].
  split; [reflexivity|]. split; [reflexivity|]. split; [|split].
  - apply Qcmult_le_mono_nonneg_l; [exact Hdc|].
    apply Qcpower_le_mono; unfold Qcdiv.
    + apply Qcmult_nonneg_nonneg; [exact H0 | apply Qclt_le_weak, Hinv].
    + apply Qcmult_le_compat_r; [exact H12 | apply Qclt_le_weak, Hinv].
  - apply Hone.
  - rewrite (damping_coefficients_lookup _ _ _ _ _ T _ _ _ _ Hd HmT HnT HmT HnT).
    f_equal. apply Hone. reflexivity.
Qed.

Lemma damping_monotone_in_wavenumber_sum_witness :
  exists d1 d2 : Qc,
    damping demo_model !! 3%nat = Some d1 /\ damping demo_model !! 7%nat = Some d2 /\
    d1 = 1 / Qc_of_Z 10000 * (eigenvalue (radius (engine demo_model)) 0 3 /
                              eigenvalue (radius (engine demo_model)) 0 3) ^ 4 /\
    d2 = 1 / Qc_of_Z 10000 * (eigenvalue (radius (engine demo_model)) 2 2 /
                              eigenvalue (radius (engine demo_model)) 0 3) ^ 4 /\
    d1 <= d2 /\
    ((0 + 3 = 0 + 3)%Z -> d1 = 1 / Qc_of_Z 10000) /\
    damping demo_model !! 3%nat = Some (1 / Qc_of_Z 10000).
Proof.
  apply (damping_monotone_in_wavenumber_sum stub_engine stub_sin demo_vrt 3 (Qc_of_Z 10)
           0%Z (Qc_of_Z 4 / Qc_of_Z 100) (1 / Qc_of_Z 10000) 4 demo_model 3 7
           0 3 2 2 0 3).
  - exact demo_init_eq.
  - reflexivity.
  - reflexivity.
  - reflexivity.
  - reflexivity.
  - reflexivity.
  - reflexivity.
  - vm_compute. discriminate.
  - lia.
  - vm_compute. discriminate.
  - lia.
Defined.

(** C4, as stated, fails on the model built from the 2 x 4 field at
    truncation 3: the index with (m, n) = (2, 2) has a larger coefficient
    than the index with (m, n) = (0, 3), and the index with (m, n) = (3, 3),
    at the truncation wavenumber, has a coefficient other than the
    configured one. *)
Lemma damping_not_monotone_in_total_wavenumber :
  ~ spec_damping_monotone demo_model /\
  ~ spec_damping_at_truncation demo_model 3 (1 / Qc_of_Z 10000).
Proof.
  split.
  - intros H.
    specialize (H 7%nat 3%nat 2%Z 3%Z (1 / Qc_of_Z 1296) (1 / Qc_of_Z 10000)).
    assert (Hle : 1 / Qc_of_Z 1296 <= 1 / Qc_of_Z 10000).
    { apply H; [reflexivity | reflexivity | some_qc_eq | some_qc_eq | lia]. }
    vm_compute in Hle. apply Hle. reflexivity.
  - intros H.
    specialize (H 9%nat (Qc_of_Z 2401 / Qc_of_Z 160000)).
    assert (Heq : Qc_of_Z 2401 / Qc_of_Z 160000 = 1 / Qc_of_Z 10000).
    { apply H; [reflexivity | some_qc_eq]. }
    apply (f_equal this) in Heq. vm_compute in Heq. discriminate.
Qed.

(** ** The snapshot loop *)

Lemma steps_step_forward k self : steps k (step_forward self) = steps (S k) self.
Proof.
  induction k as [|k IH]; [reflexivity|].
  rewrite (steps_S (S k)), <- IH. reflexivity.
Qed.

Lemma snapshot_loop_S fuel target si ss n self :
  snapshot_loop (S fuel) target si ss n self =
    if (n <=? target)%Z then
      if bool_decide (ss < t (step_forward self)) then
        if (si =? 0)%Z then Raised ZeroDivisionError
        else if ((n + 1) mod si =? 0)%Z
             then stepped (yielding (n + 1, t (step_forward self))%Z
                             (snapshot_loop fuel target si ss (n + 1) (step_forward self)))
             else stepped (snapshot_loop fuel target si ss (n + 1) (step_forward self))
      else stepped (snapshot_loop fuel target si ss (n + 1) (step_forward self))
    else Done {| yields := []; calls := 0; final := self |}.
Proof. reflexivity. Qed.

(** With fuel above the number of iterations left the loop returns; its
    yields, calls and final model are these. *)
Lemma snapshot_loop_closed_form fuel target si ss n self b :
  si <> 0%Z ->
  t self = b + Qc_of_Z n * dt self ->
  (Z.to_nat (target + 1 - n) < fuel)%nat ->
  snapshot_loop fuel target si ss n self =
    Done {| yields := loop_snapshots target si ss b (dt self) n;
            calls := Z.to_nat (target + 1 - n);
            final := steps (Z.to_nat (target + 1 - n)) self |}.
Proof.
  intros Hsi. revert n self.
  induction fuel as [|fuel IH]; intros n self Ht Hfuel; [lia|].
  rewrite snapshot_loop_S. unfold loop_snapshots.
  destruct (Z.leb_spec n target) as [Hle|Hgt].
  - assert (Ht1 : t (step_forward self) = b + Qc_of_Z (n + 1) * dt (step_forward self)).
    { rewrite step_forward_t, step_forward_dt, Ht, Z2Qc_inj_add, Z2Qc_inj_1. ring. }
    rewrite (IH (n + 1)%Z (step_forward self) Ht1) by lia.
    rewrite step_forward_dt, steps_step_forward.
    rewrite (seqZ_cons (n + 1)) by lia.
    replace (Z.succ (n + 1)) with (n + 1 + 1)%Z by lia.
    replace (Z.pred (target + 1 - n)) with (target + 1 - (n + 1))%Z by lia.
    replace (Z.to_nat (target + 1 - n)) with (S (Z.to_nat (target + 1 - (n + 1)))) by lia.
    rewrite filter_cons. rewrite Ht1, step_forward_dt.
    destruct (Z.eqb_spec si 0) as [|_]; [contradiction|].
    unfold loop_snapshots.
    destruct (decide (ss < b + Qc_of_Z (n + 1) * dt self /\
                      ((n + 1) mod si)%Z = 0%Z)) as [[Hlt Hmod]|Hno].
    + rewrite bool_decide_eq_true_2 by exact Hlt.
      rewrite (proj2 (Z.eqb_eq _ _) Hmod). reflexivity.
    + destruct (bool_decide (ss < b + Qc_of_Z (n + 1) * dt self)) eqn:Hb; [|reflexivity].
      apply bool_decide_eq_true_1 in Hb.
      destruct (Z.eqb_spec ((n + 1) mod si) 0) as [Hmod|_]; [|reflexivity].
      exfalso. apply Hno. split; assumption.
  - rewrite seqZ_nil by lia.
    replace (Z.to_nat (target + 1 - n)) with 0%nat by lia. reflexivity.
Qed.

(** A positive time step gives a step interval of at least one. *)
Lemma step_interval_pos self snapshot_interval :
  0 < dt self -> (1 <= step_interval_of self snapshot_interval)%Z.
Proof.
  intros Hdt. unfold step_interval_of.
  assert (Hge : dt self <= effective_interval self snapshot_interval).
  { unfold effective_interval.
    destruct (bool_decide _) eqn:Hb; [apply Qcle_refl|].
    apply bool_decide_eq_false_1 in Hb. apply Qcnot_lt_le, Hb. }
  assert (Hone : 1 <= effective_interval self snapshot_interval / dt self).
  { unfold Qcdiv.
    rewrite <- (Qcmult_inv_r (dt self)) by (apply not_eq_sym, Qclt_not_eq, Hdt).
    apply Qcmult_le_compat_r; [exact Hge | apply Qclt_le_weak, Qcinv_pos, Hdt]. }
  change (1%Z) with (Qceiling (inject_Z 1)).
  apply Qceiling_resp_le. unfold Qcle in Hone.
  change (this 1) with (inject_Z 1) in Hone. exact Hone.
Qed.

(** With a positive time step the generator runs to exhaustion without an
    exception: it makes [target_steps + 1] calls of [step_forward]. *)
Lemma run_with_snapshots_closed_form fuel self run_time ss snapshot_interval :
  0 < dt self ->
  (Z.to_nat (target_steps_of self run_time + 1) < fuel)%nat ->
  run_with_snapshots fuel self run_time ss snapshot_interval =
    Done {| yields := loop_snapshots (target_steps_of self run_time)
                        (step_interval_of self snapshot_interval) ss (t self) (dt self) 0;
            calls := Z.to_nat (target_steps_of self run_time + 1);
            final := steps (Z.to_nat (target_steps_of self run_time + 1)) self |}.
Proof.
  intros Hdt Hfuel. unfold run_with_snapshots.
  rewrite bool_decide_eq_false_2 by (apply not_eq_sym, Qclt_not_eq, Hdt).
  pose proof (step_interval_pos self snapshot_interval Hdt) as Hsi.
  rewrite (snapshot_loop_closed_form fuel _ _ ss 0 self (t self)).
  - rewrite Z.sub_0_r. reflexivity.
  - lia.
  - rewrite Z2Qc_inj_0. ring.
  - rewrite Z.sub_0_r. exact Hfuel.
Qed.

(** Whatever the arguments, the loop stops: with enough fuel the outcome is
    a result or an exception. *)
Lemma snapshot_loop_stops fuel target si ss n self :
  (Z.to_nat (target + 1 - n) < fuel)%nat ->
  snapshot_loop fuel target si ss n self <> OutOfFuel.
Proof.
  revert n self. induction fuel as [|fuel IH]; intros n self Hfuel; [lia|].
  rewrite snapshot_loop_S. destruct (Z.leb_spec n target) as [Hle|Hgt]; [|discriminate].
  specialize (IH (n + 1)%Z (step_forward self) ltac:(lia)).
  destruct (snapshot_loop fuel target si ss (n + 1) (step_forward self)); [| |contradiction];
    repeat (match goal with |- context [if ?b then _ else _] => destruct b end);
    discriminate.
Qed.

Lemma run_with_snapshots_stops self run_time ss snapshot_interval :
  exists fuel, run_with_snapshots fuel self run_time ss snapshot_interval <> OutOfFuel.
Proof.
  exists (S (Z.to_nat (target_steps_of self run_time + 1))).
  unfold run_with_snapshots. destruct (bool_decide _); [discriminate|].
  apply snapshot_loop_stops. lia.
Qed.

(** Two lists of yields are equal when their counters and the fractions of
    their values are. *)
Lemma yields_eq (l1 l2 : list (Z * Qc)) :
  fst <$> l1 = fst <$> l2 ->
  (fun y => this (snd y)) <$> l1 = (fun y => this (snd y)) <$> l2 ->
  l1 = l2.
Proof.
  revert l2.
  induction l1 as [|[k x] l1 IH]; intros [|[k' y] l2] Hk Hv; try discriminate; [reflexivity|].
  injection Hk as -> Hk. injection Hv as Hxy Hv. f_equal; [|apply IH; assumption].
  f_equal. apply Qc_is_canon. simpl in Hxy. rewrite Hxy. reflexivity.
Qed.

(** C6: with [dt = 10] and the clock at 0,
    [run_with_snapshots(run_time=100, snapshot_interval=20)] yields exactly
    the five values 20, 40, 60, 80, 100, whatever the engine and the fields;
    each exceeds [snapshot_start] (0) and is yielded after a number of steps,
    2, 4, 6, 8, 10, that is a multiple of [ceil(snapshot_interval/dt)] = 2. *)
Theorem five_snapshots (self : BarotropicModel) (fuel : nat) :
  t self = 0 ->
  dt self = Qc_of_Z 10 ->
  (12 <= fuel)%nat ->
  exists r : run,
    run_with_snapshots fuel self (Qc_of_Z 100) 0 (Some (Qc_of_Z 20)) = Done r /\
    snd <$> yields r = Qc_of_Z <$> [20; 40; 60; 80; 100]%Z /\
    fst <$> yields r = [2; 4; 6; 8; 10]%Z /\
    step_interval_of self (Some (Qc_of_Z 20)) = 2%Z /\
    Forall (fun y => 0 < snd y /\
                     (fst y mod step_interval_of self (Some (Qc_of_Z 20)))%Z = 0%Z)
           (yields r).
Proof.
  intros Ht Hdt Hfuel.
  assert (Hpos : 0 < dt self) by (rewrite Hdt; reflexivity).
  assert (Htarget : target_steps_of self (Qc_of_Z 100) = 10%Z).
  { unfold target_steps_of. rewrite Ht, Hdt. reflexivity. }
  assert (Hsi : step_interval_of self (Some (Qc_of_Z 20)) = 2%Z).
  { unfold step_interval_of, effective_interval. rewrite Hdt. reflexivity. }
  eexists. split.
  { apply run_with_snapshots_closed_form; [exact Hpos|]. rewrite Htarget. simpl. lia. }
  cbn [yields]. rewrite Htarget, Hsi, Ht, Hdt.
  assert (Hys : loop_snapshots 10 2 0 0 (Qc_of_Z 10) 0 =
                zip [2; 4; 6; 8; 10]%Z (Qc_of_Z <$> [20; 40; 60; 80; 100]%Z)).
  { apply yields_eq; vm_compute; reflexivity. }
  rewrite Hys. repeat split.
  repeat constructor; simpl; reflexivity.
Qed.

Lemma five_snapshots_witness :
  exists r : run,
    run_with_snapshots 12 demo_model (Qc_of_Z 100) 0 (Some (Qc_of_Z 20)) = Done r /\
    snd <$> yields r = Qc_of_Z <$> [20; 40; 60; 80; 100]%Z /\
    fst <$> yields r = [2; 4; 6; 8; 10]%Z /\
    step_interval_of demo_model (Some (Qc_of_Z 20)) = 2%Z /\
    Forall (fun y => 0 < snd y /\
                     (fst y mod step_interval_of demo_model (Some (Qc_of_Z 20)))%Z = 0%Z)
           (yields r).
Proof.
  apply (five_snapshots demo_model 12).
  - reflexivity.
  - vm_compute. reflexivity.
  - lia.
Defined.

(** C5 on the code: the run of C6 on the model of the 2 x 4 field makes
    eleven calls of [step_forward] and leaves the clock at 110, where
    [ceil((elapsed + run_time)/dt)] is ten. *)
Theorem run_with_snapshots_extra_step :
  exists r : run,
    run_with_snapshots 12 demo_model (Qc_of_Z 100) 0 (Some (Qc_of_Z 20)) = Done r /\
    calls r = 11%nat /\
    Qceiling ((t demo_model + Qc_of_Z 100) / dt demo_model)%Qc = 10%Z /\
    t (final r) = Qc_of_Z 110.
Proof.
  eexists. split.
  { apply run_with_snapshots_closed_form; [reflexivity|]. vm_compute. lia. }
  cbn [calls final]. split; [reflexivity|]. split; [reflexivity|].
  rewrite steps_t. qc_eq.
Qed.

(** * Further properties of the code *)

(** ** Sequences of operations *)

Lemma apply_ops_cons self o os : apply_ops self (o :: os) = apply_ops (apply_op self o) os.
Proof. reflexivity. Qed.

Lemma apply_op_frame self o :
  nlat (apply_op self o) = nlat self /\
  nlon (apply_op self o) = nlon self /\
  robert_coefficient (apply_op self o) = robert_coefficient self /\
  engine (apply_op self o) = engine self /\
  damping (apply_op self o) = damping self /\
  f (apply_op self o) = f self /\
  start_time (apply_op self o) = start_time self /\
  dt (apply_op self o) = dt self.
Proof.
  destruct o as [|g]; simpl.
  - destruct (step_forward_frame self) as (? & ? & ? & ? & ? & ? & ?).
    pose proof (step_forward_dt self). repeat split; assumption.
  - repeat split.
Qed.

Lemma apply_ops_engine self os : engine (apply_ops self os) = engine self.
Proof.
  revert self. induction os as [|o os IH]; intros self; [reflexivity|].
  rewrite apply_ops_cons, IH. apply apply_op_frame.
Qed.

(** X1: no sequence of [step_forward] and [set_state] calls changes the grid
    sizes, the filter coefficient, the engine, the damping vector, the
    Coriolis field, the start time or the time step. *)
Theorem configuration_is_immutable (self : BarotropicModel) (os : list op) :
  nlat (apply_ops self os) = nlat self /\
  nlon (apply_ops self os) = nlon self /\
  robert_coefficient (apply_ops self os) = robert_coefficient self /\
  engine (apply_ops self os) = engine self /\
  damping (apply_ops self os) = damping self /\
  f (apply_ops self os) = f self /\
  start_time (apply_ops self os) = start_time self /\
  dt (apply_ops self os) = dt self.
Proof.
  revert self. induction os as [|o os IH]; intros self; [repeat split|].
  rewrite apply_ops_cons.
  destruct (IH (apply_op self o)) as (H1 & H2 & H3 & H4 & H5 & H6 & H7 & H8).
  destruct (apply_op_frame self o) as (G1 & G2 & G3 & G4 & G5 & G6 & G7 & G8).
  rewrite H1, H2, H3, H4, H5, H6, H7, H8. repeat split; assumption.
Qed.



(** X3: the first-step flag is true after a sequence of operations exactly
    when it was true before and the sequence has no [step_forward]: the flag
    is cleared by the first step and nothing sets it again. *)
Theorem first_step_flag_after (self : BarotropicModel) (os : list op) :
  first_step (apply_ops self os) =
    first_step self && bool_decide (count_steps os = 0%nat).
Proof.
  revert self. induction os as [|o os IH]; intros self.
  - change (apply_ops self []) with self. simpl. destruct (first_step self); reflexivity.
  - rewrite apply_ops_cons, IH. destruct o as [|g].
    + change (apply_op self StepForward) with (step_forward self).
      change (count_steps (StepForward :: os)) with (S (count_steps os)).
      rewrite step_forward_first_step.
      rewrite (bool_decide_eq_false_2 (S (count_steps os) = 0%nat)) by discriminate.
      rewrite andb_false_r. reflexivity.
    + reflexivity.
Qed.

(** X4: [set_state(g)] after any history leaves the five field buffers with
    the values [set_state(g)] gives on the model before that history; what
    was computed in between leaves no trace in them. *)
Theorem set_state_forgets_history (self : BarotropicModel) (os : list op) (g : grid) :
  let now := set_state (apply_ops self os) g in
  let fresh := set_state self g in
  vrt_spec now = vrt_spec fresh /\
  vrt_spec_prev now = vrt_spec fresh /\
  vrt_grid now = vrt_grid fresh /\
  u_grid now = u_grid fresh /\
  v_grid now = v_grid fresh.
Proof.
  intros now fresh. subst now fresh. unfold set_state. simpl.
  rewrite (apply_ops_engine self os). repeat split.
Qed.

(** ** Construction: the IndexError *)


(** ** Shapes *)

Lemma damping_coefficients_length e T dc ord d :
  damping_coefficients e T dc ord = Some d ->
  length d = Nat.min (length (fst (wavenumbers e))) (length (snd (wavenumbers e))).
Proof.
  unfold damping_coefficients, laplacian_eigenvalues.
  destruct (_ !! T) as [x|]; simpl; [|discriminate].
  intros [= <-]. rewrite length_fmap, length_zip_with. reflexivity.
Qed.

Lemma damped_tendency_length N self :
  engine_shapes (engine self) N -> well_shaped N self ->
  length (damped_tendency self) = N.
Proof.
  intros He (Hs & Hp & Hd).
  unfold damped_tendency, rcmul, vsub, coeffs, forcing.
  rewrite !length_zip_with, length_fmap, (shape_tendency _ _ He), Hd, Hp. lia.
Qed.

Lemma set_state_well_shaped N self g :
  engine_shapes (engine self) N -> length (damping self) = N ->
  well_shaped N (set_state self g).
Proof.
  intros He Hd. unfold well_shaped, set_state. simpl. unfold assign.
  rewrite (shape_grid_to_spec _ _ He). repeat split. exact Hd.
Qed.

Lemma step_forward_well_shaped N self :
  engine_shapes (engine self) N -> well_shaped N self ->
  well_shaped N (step_forward self).
Proof.
  intros He Hw. pose proof (damped_tendency_length N self He Hw) as Ht.
  destruct Hw as (Hs & Hp & Hd).
  destruct (step_forward_frame self) as (_ & _ & _ & _ & Hdamp & _).
  unfold well_shaped. rewrite Hdamp.
  destruct (first_step self) eqn:Hfs.
  - destruct (step_forward_first self Hfs) as [Hnew Hprev].
    rewrite Hprev, Hnew. unfold vadd, vsub, smul.
    rewrite !length_zip_with, !length_fmap, !length_zip_with, !length_fmap, Hs, Ht.
    repeat split; lia.
  - destruct (step_forward_later self Hfs) as [Hnew Hprev].
    rewrite Hprev, Hnew. unfold vadd, vsub, smul.
    rewrite !length_zip_with, !length_fmap, !length_zip_with, !length_fmap, Hs, Hp, Ht.
    repeat split; lia.
Qed.

(** X6: when the engine returns spectral vectors of [N] coefficients and
    wavenumber arrays of [N] entries, the current and the previous spectral
    level and the damping vector have [N] entries after construction and
    after every later [set_state] or [step_forward]: the element-wise
    operations of a step always meet arrays of one shape. *)
Theorem spectral_shapes_kept new_engine sin_deg2rad vrt T dt0 st rc dc ord self
    (N : nat) (os : list op) :
  init new_engine sin_deg2rad vrt T dt0 st rc dc ord = Some self ->
  engine_shapes (engine self) N ->
  well_shaped N (apply_ops self os) /\
  length (damped_tendency (apply_ops self os)) = N.
Proof.
  intros Hinit He.
  destruct (init_clock _ _ _ _ _ _ _ _ _ _ Hinit) as (_ & _ & _ & _ & _ & _ & Hd).
  destruct (init_fields _ _ _ _ _ _ _ _ _ _ Hinit) as (Hs & Hp & _).
  assert (H0 : well_shaped N self).
  { unfold well_shaped. rewrite Hp, Hs, (shape_grid_to_spec _ _ He).
    rewrite (damping_coefficients_length _ _ _ _ _ Hd).
    rewrite (shape_wavenumbers_m _ _ He), (shape_wavenumbers_n _ _ He).
    repeat split. lia. }
  assert (Hall : forall os' self', engine_shapes (engine self') N -> well_shaped N self' ->
                   well_shaped N (apply_ops self' os')).
  { induction os' as [|o os' IH]; intros self' He' Hw'; [exact Hw'|].
    rewrite apply_ops_cons. apply IH.
    - destruct (apply_op_frame self' o) as (_ & _ & _ & -> & _). exact He'.
    - destruct o as [|g]; simpl.
      + apply step_forward_well_shaped; assumption.
      + apply set_state_well_shaped; [exact He'|]. apply Hw'. }
  split; [apply Hall; assumption|].
  apply damped_tendency_length; [|apply Hall; assumption].
  rewrite apply_ops_engine. exact He.
Qed.

(** ** The state of rest *)














Section RestAfterConstruction.
Variable new_engine : nat -> nat -> nat -> TransformsEngine.
Variable sin_deg2rad : Qc -> Qc.


End RestAfterConstruction.




Lemma demo_engine_shapes : engine_shapes (engine demo_model) 10.
Proof.
  split.
  - intros g. change (length (resize 10 C0 (of_real <$> concat g)) = 10%nat).
    apply length_resize.
  - intros u v. reflexivity.
  - reflexivity.
  - reflexivity.
Qed.

Lemma spectral_shapes_kept_witness :
  well_shaped 10 (apply_ops demo_model [StepForward; SetState demo_vrt; StepForward]) /\
  length (damped_tendency
            (apply_ops demo_model [StepForward; SetState demo_vrt; StepForward])) = 10%nat.
Proof.
  apply (spectral_shapes_kept stub_engine stub_sin demo_vrt 3 (Qc_of_Z 10) 0%Z
           (Qc_of_Z 4 / Qc_of_Z 100) (1 / Qc_of_Z 10000) 4 demo_model 10).
  - exact demo_init_eq.
  - exact demo_engine_shapes.
Defined.

(** ** More on the damping coefficients *)

Lemma eigenvalue_nonneg (r : Qc) (m n : Z) : r <> 0 -> 0 <= eigenvalue r m n.
Proof.
  intros Hr. unfold eigenvalue, Qcdiv.
  apply Qcmult_nonneg_nonneg; [|apply Qclt_le_weak, Qcinv_pos, Qc_square_pos, Hr].
  rewrite <- Z2Qc_inj_0. apply (proj1 (Z2Qc_inj_le _ _)).
  destruct (Z.le_gt_cases 0 (m + n)) as [Hs|Hs]; nia.
Qed.

(** An entry of the damping vector comes from an entry of each wavenumber
    array. *)
Lemma damping_coefficients_entry e T dc ord d (i : nat) (x : Qc) (mT nT : Z) :
  damping_coefficients e T dc ord = Some d ->
  fst (wavenumbers e) !! T = Some mT -> snd (wavenumbers e) !! T = Some nT ->
  d !! i = Some x ->
  exists m n : Z,
    fst (wavenumbers e) !! i = Some m /\ snd (wavenumbers e) !! i = Some n /\
    x = dc * (eigenvalue (radius e) m n / eigenvalue (radius e) mT nT) ^ ord.
Proof.
  intros Hd HmT HnT Hx.
  assert (Hlen : (i < length d)%nat) by (eapply lookup_lt_Some; exact Hx).
  rewrite (damping_coefficients_length _ _ _ _ _ Hd) in Hlen.
  destruct (lookup_lt_is_Some_2 (fst (wavenumbers e)) i ltac:(lia)) as [m Hm].
  destruct (lookup_lt_is_Some_2 (snd (wavenumbers e)) i ltac:(lia)) as [n Hn].
  exists m, n. split; [exact Hm|]. split; [exact Hn|].
  rewrite (damping_coefficients_lookup _ _ _ _ _ i _ _ _ _ Hd HmT HnT Hm Hn) in Hx.
  injection Hx as <-. reflexivity.
Qed.

Lemma damping_coefficients_nonneg e T dc ord d (i : nat) (x : Qc) (mT nT : Z) :
  damping_coefficients e T dc ord = Some d ->
  fst (wavenumbers e) !! T = Some mT -> snd (wavenumbers e) !! T = Some nT ->
  radius e <> 0 -> (0 < mT + nT)%Z -> 0 <= dc ->
  d !! i = Some x -> 0 <= x.
Proof.
  intros Hd HmT HnT Hr HsT Hdc Hx.
  destruct (damping_coefficients_entry _ _ _ _ _ _ _ _ _ Hd HmT HnT Hx) as (m & n & _ & _ & ->).
  apply Qcmult_nonneg_nonneg; [exact Hdc|]. apply Qcpower_pos. unfold Qcdiv.
  apply Qcmult_nonneg_nonneg; [apply eigenvalue_nonneg, Hr|].
  apply Qclt_le_weak, Qcinv_pos, eigenvalue_pos; assumption.
Qed.

Lemma apply_ops_damping self os : damping (apply_ops self os) = damping self.
Proof.
  revert self. induction os as [|o os IH]; intros self; [reflexivity|].
  rewrite apply_ops_cons, IH. apply apply_op_frame.
Qed.

Lemma apply_ops_dt self os : dt (apply_ops self os) = dt self.
Proof.
  revert self. induction os as [|o os IH]; intros self; [reflexivity|].
  rewrite apply_ops_cons, IH. apply apply_op_frame.
Qed.

(** X8: for a non-negative configured coefficient (a non-zero radius and a
    positive eigenvalue at index [truncation]) no damping coefficient is
    negative, at construction or at any later time, whatever the wavenumbers
    the engine reports. *)
Theorem damping_never_negative new_engine sin_deg2rad vrt T dt0 st rc dc ord self
    (os : list op) (i : nat) (x : Qc) (mT nT : Z) :
  init new_engine sin_deg2rad vrt T dt0 st rc dc ord = Some self ->
  fst (wavenumbers (engine self)) !! T = Some mT ->
  snd (wavenumbers (engine self)) !! T = Some nT ->
  radius (engine self) <> 0 ->
  (0 < mT + nT)%Z ->
  0 <= dc ->
  damping (apply_ops self os) !! i = Some x ->
  0 <= x.
Proof.
  intros Hinit HmT HnT Hr HsT Hdc Hx.
  destruct (init_clock _ _ _ _ _ _ _ _ _ _ Hinit) as (_ & _ & _ & _ & _ & _ & Hd).
  rewrite apply_ops_damping in Hx.
  exact (damping_coefficients_nonneg _ _ _ _ _ _ _ _ _ Hd HmT HnT Hr HsT Hdc Hx).
Qed.

Lemma damping_never_negative_witness : 0 <= 1 / Qc_of_Z 1296.
Proof.
  apply (damping_never_negative stub_engine stub_sin demo_vrt 3 (Qc_of_Z 10) 0%Z
           (Qc_of_Z 4 / Qc_of_Z 100) (1 / Qc_of_Z 10000) 4 demo_model
           [StepForward] 7 (1 / Qc_of_Z 1296) 0 3).
  - exact demo_init_eq.
  - reflexivity.
  - reflexivity.
  - vm_compute. discriminate.
  - lia.
  - vm_compute. discriminate.
  - some_qc_eq.
Defined.

Lemma implicit_factor_bounds (d dt0 : Qc) :
  0 <= d -> 0 <= dt0 -> 0 < 1 / (1 + d * dt0) /\ 1 / (1 + d * dt0) <= 1.
Proof.
  intros Hd Hdt.
  assert (Hge : 1 <= 1 + d * dt0).
  { rewrite <- (Qcplus_0_r 1) at 1. apply Qcplus_le_mono_l.
    apply Qcmult_nonneg_nonneg; assumption. }
  assert (Hpos : 0 < 1 + d * dt0) by (apply Qclt_le_trans with 1; [reflexivity | exact Hge]).
  unfold Qcdiv. rewrite Qcmult_1_l. split; [apply Qcinv_pos, Hpos|].
  apply (Qcmult_le_mono_pos_r _ _ (1 + d * dt0) Hpos).
  rewrite Qcmult_inv_l by (apply not_eq_sym, Qclt_not_eq, Hpos).
  rewrite Qcmult_1_l. exact Hge.
Qed.

(** X9: with a non-negative configured coefficient and a non-negative time
    step, every factor [1/(1 + damping*dt)] of the implicit damping lies in
    (0, 1], at construction and at any later time: the factor never
    amplifies and never changes the sign of the tendency. *)
Theorem implicit_factor_in_unit_interval new_engine sin_deg2rad vrt T dt0 st rc dc ord self
    (os : list op) (i : nat) (c : Qc) (mT nT : Z) :
  init new_engine sin_deg2rad vrt T dt0 st rc dc ord = Some self ->
  fst (wavenumbers (engine self)) !! T = Some mT ->
  snd (wavenumbers (engine self)) !! T = Some nT ->
  radius (engine self) <> 0 ->
  (0 < mT + nT)%Z ->
  0 <= dc ->
  0 <= dt0 ->
  coeffs (apply_ops self os) !! i = Some c ->
  0 < c /\ c <= 1.
Proof.
  intros Hinit HmT HnT Hr HsT Hdc Hdt Hc.
  destruct (init_clock _ _ _ _ _ _ _ _ _ _ Hinit) as (_ & Hdt0 & _ & _ & _ & _ & Hd).
  unfold coeffs in Hc. rewrite apply_ops_damping, apply_ops_dt, Hdt0 in Hc.
  rewrite list_lookup_fmap in Hc.
  destruct (damping self !! i) as [x|] eqn:Hx; [|discriminate].
  injection Hc as <-.
  apply implicit_factor_bounds; [|exact Hdt].
  exact (damping_coefficients_nonneg _ _ _ _ _ _ _ _ _ Hd HmT HnT Hr HsT Hdc Hx).
Qed.

Lemma implicit_factor_in_unit_interval_witness :
  0 < 1 / (1 + 1 / Qc_of_Z 1296 * Qc_of_Z 10) /\
  1 / (1 + 1 / Qc_of_Z 1296 * Qc_of_Z 10) <= 1.
Proof.
  apply (implicit_factor_in_unit_interval stub_engine stub_sin demo_vrt 3 (Qc_of_Z 10) 0%Z
           (Qc_of_Z 4 / Qc_of_Z 100) (1 / Qc_of_Z 10000) 4 demo_model
           [StepForward] 7 _ 0 3).
  - exact demo_init_eq.
  - reflexivity.
  - reflexivity.
  - vm_compute. discriminate.
  - lia.
  - vm_compute. discriminate.
  - vm_compute. discriminate.
  - some_qc_eq.
Defined.

(** X10: for a damping order of at least one, a spectral index whose
    wavenumbers sum to zero (the global mean, m = n = 0) has damping
    coefficient exactly zero and implicit factor exactly one: the step adds
    its raw forcing tendency, undamped. *)
Theorem mean_mode_is_undamped new_engine sin_deg2rad vrt T dt0 st rc dc ord self
    (i : nat) (m n mT nT : Z) (z p : complex) :
  init new_engine sin_deg2rad vrt T dt0 st rc dc ord = Some self ->
  fst (wavenumbers (engine self)) !! T = Some mT ->
  snd (wavenumbers (engine self)) !! T = Some nT ->
  fst (wavenumbers (engine self)) !! i = Some m ->
  snd (wavenumbers (engine self)) !! i = Some n ->
  radius (engine self) <> 0 ->
  (0 < mT + nT)%Z ->
  (m + n = 0)%Z ->
  ord <> 0%nat ->
  forcing self !! i = Some z ->
  vrt_spec_prev self !! i = Some p ->
  damping self !! i = Some 0 /\
  coeffs self !! i = Some 1 /\
  damped_tendency self !! i = Some z.
Proof.
  intros Hinit HmT HnT Hm Hn Hr HsT Hs Hord Hz Hp.
  destruct (init_clock _ _ _ _ _ _ _ _ _ _ Hinit) as (_ & _ & _ & _ & _ & _ & Hd).
  assert (Hzero : damping self !! i = Some 0).
  { rewrite (damping_coefficients_lookup _ _ _ _ _ i _ _ _ _ Hd HmT HnT Hm Hn).
    f_equal. unfold eigenvalue at 1. rewrite Hs. change (0 * (0 + 1))%Z with 0%Z.
    rewrite Z2Qc_inj_0. unfold Qcdiv. rewrite !Qcmult_0_l, Qcpower_0 by exact Hord. ring. }
  assert (Hone : 1 / (1 + 0 * dt self) = 1).
  { rewrite Qcmult_0_l, Qcplus_0_r. apply Qc_is_canon. reflexivity. }
  split; [exact Hzero|]. split.
  - unfold coeffs. rewrite list_lookup_fmap, Hzero. simpl. rewrite Hone. reflexivity.
  - unfold damped_tendency, rcmul, vsub, coeffs, spectral in *.
    rewrite lookup_zip_with, list_lookup_fmap, Hzero. simpl.
    rewrite lookup_zip_with, Hz. simpl.
    rewrite lookup_zip_with, Hzero. simpl. rewrite Hp. simpl.
    f_equal. rewrite Hone. change (of_real 1) with C1. change (of_real 0) with C0. ring.
Qed.

Lemma mean_mode_is_undamped_witness :
  damping demo_model !! 0%nat = Some 0 /\
  coeffs demo_model !! 0%nat = Some 1 /\
  damped_tendency demo_model !! 0%nat = Some C0.
Proof.
  apply (mean_mode_is_undamped stub_engine stub_sin demo_vrt 3 (Qc_of_Z 10) 0%Z
           (Qc_of_Z 4 / Qc_of_Z 100) (1 / Qc_of_Z 10000) 4 demo_model 0 0 0 0 3
           C0 (of_real (Qc_of_Z 1))).
  - exact demo_init_eq.
  - reflexivity.
  - reflexivity.
  - reflexivity.
  - reflexivity.
  - vm_compute. discriminate.
  - lia.
  - lia.
  - discriminate.
  - reflexivity.
  - vm_compute. reflexivity.
Defined.

(** X11: a model built with [damping_coefficient = 0] (on an engine with a
    non-zero radius and a positive eigenvalue at index [truncation]) has an
    all-zero damping vector, and on every later step, whatever happened in between,
    the tendency the integrator adds at a spectral index is the raw forcing
    tendency of that index. *)
Theorem zero_damping_uses_raw_forcing new_engine sin_deg2rad vrt T dt0 st rc ord self
    (os : list op) (i : nat) (d : Qc) (z p : complex) (mT nT : Z) :
  init new_engine sin_deg2rad vrt T dt0 st rc 0 ord = Some self ->
  fst (wavenumbers (engine self)) !! T = Some mT ->
  snd (wavenumbers (engine self)) !! T = Some nT ->
  radius (engine self) <> 0 ->
  (0 < mT + nT)%Z ->
  damping (apply_ops self os) !! i = Some d ->
  forcing (apply_ops self os) !! i = Some z ->
  vrt_spec_prev (apply_ops self os) !! i = Some p ->
  d = 0 /\ damped_tendency (apply_ops self os) !! i = Some z.
Proof.
  intros Hinit _ _ _ _ Hdi Hz Hp.
  destruct (init_clock _ _ _ _ _ _ _ _ _ _ Hinit) as (_ & _ & _ & _ & _ & _ & Hd).
  assert (Hzero : d = 0).
  { rewrite apply_ops_damping in Hdi. unfold damping_coefficients in Hd.
    destruct (_ !! T) as [x|]; simpl in Hd; [|discriminate].
    injection Hd as Hd. rewrite <- Hd, list_lookup_fmap in Hdi.
    destruct (_ !! i) as [y|]; simpl in Hdi; [|discriminate].
    injection Hdi as <-. ring. }
  subst d. split; [reflexivity|].
  set (self' := apply_ops self os) in *.
  unfold damped_tendency, rcmul, vsub, coeffs, spectral in *.
  rewrite lookup_zip_with, list_lookup_fmap, Hdi. simpl.
  rewrite lookup_zip_with, Hz. simpl.
  rewrite lookup_zip_with, Hdi. simpl. rewrite Hp. simpl.
  f_equal.
  replace (1 / (1 + 0 * dt self')) with 1
    by (rewrite Qcmult_0_l, Qcplus_0_r; apply Qc_is_canon; reflexivity).
  change (of_real 1) with C1. change (of_real 0) with C0. ring.
Qed.

Lemma zero_damping_uses_raw_forcing_witness :
  let self := default demo_model
                (init stub_engine stub_sin demo_vrt 3 (Qc_of_Z 10) 0%Z
                      (Qc_of_Z 4 / Qc_of_Z 100) 0 4) in
  0 = 0 /\ damped_tendency (apply_ops self [StepForward]) !! 2%nat = Some C0.
Proof.
  apply (zero_damping_uses_raw_forcing stub_engine stub_sin demo_vrt 3 (Qc_of_Z 10) 0%Z
           (Qc_of_Z 4 / Qc_of_Z 100) 4 _ [StepForward] 2 0 C0 (of_real (Qc_of_Z 3)) 0 3).
  - vm_compute. reflexivity.
  - reflexivity.
  - reflexivity.
  - vm_compute. discriminate.
  - lia.
  - some_qc_eq.
  - reflexivity.
  - some_complex_eq.
Defined.

(** ** The filter switched off *)

Lemma vadd_smul_zero (c x : list complex) :
  (length c <= length x)%nat -> vadd c (smul 0 x) = c.
Proof.
  unfold vadd, smul. revert x.
  induction c as [|a c IH]; intros [|b x] Hlen; simpl in *; try lia; [reflexivity..|].
  rewrite IH by lia. f_equal. change (of_real 0) with C0. ring.
Qed.

(** X12: with [robert_coefficient = 0] and spectral arrays of one shape the
    filter does nothing: after a step the previous level is exactly the old
    current level, on the first step and on every later one. *)
Theorem zero_robert_coefficient_no_filter (self : BarotropicModel) (N : nat) :
  robert_coefficient self = 0 ->
  engine_shapes (engine self) N ->
  well_shaped N self ->
  vrt_spec_prev (step_forward self) = vrt_spec self.
Proof.
  intros Hr He Hw. pose proof (damped_tendency_length N self He Hw) as Ht.
  destruct Hw as (Hs & Hp & Hd).
  destruct (first_step self) eqn:Hfs.
  - destruct (step_forward_first self Hfs) as [Hnew Hprev].
    rewrite Hprev, Hr. apply vadd_smul_zero.
    rewrite Hnew. unfold vsub, vadd, smul.
    rewrite !length_zip_with, length_fmap, Hs, Ht. lia.
  - destruct (step_forward_later self Hfs) as [Hnew Hprev].
    rewrite Hprev, Hr.
    rewrite (vadd_smul_zero (vrt_spec self)
               (vsub (vrt_spec_prev self) (smul 2 (vrt_spec self)))).
    + apply vadd_smul_zero. rewrite Hnew. unfold vadd, smul.
      rewrite length_zip_with, length_fmap, Hs, Hp, Ht. lia.
    + unfold vsub, smul. rewrite length_zip_with, length_fmap, Hs, Hp. lia.
Qed.

Lemma zero_robert_coefficient_no_filter_witness :
  let self := default demo_model
                (init stub_engine stub_sin demo_vrt 3 (Qc_of_Z 10) 0%Z
                      0 (1 / Qc_of_Z 10000) 4) in
  vrt_spec_prev (step_forward (step_forward self)) = vrt_spec (step_forward self).
Proof.
  apply (zero_robert_coefficient_no_filter _ 10).
  - reflexivity.
  - exact demo_engine_shapes.
  - repeat split.
Defined.

(** ** The generator run to exhaustion *)





(** ** Edge cases of the generator's arguments *)

Lemma effective_interval_floor self (x : Qc) :
  x = 0 \/ x <= dt self -> effective_interval self (Some x) = dt self.
Proof.
  intros Hx. unfold effective_interval.
  destruct (bool_decide (x = 0)) eqn:Hz.
  - rewrite bool_decide_eq_false_2; [reflexivity|]. apply Qcle_not_lt, Qcle_refl.
  - apply bool_decide_eq_false_1 in Hz. destruct Hx as [Hx|Hx]; [contradiction|].
    destruct (bool_decide (x < dt self)) eqn:Hlt; [reflexivity|].
    apply bool_decide_eq_false_1 in Hlt. apply Qcle_antisym; [exact Hx|].
    apply Qcnot_lt_le, Hlt.
Qed.

Lemma effective_interval_default self : effective_interval self None = dt self.
Proof.
  unfold effective_interval.
  rewrite bool_decide_eq_false_2; [reflexivity|]. apply Qcle_not_lt, Qcle_refl.
Qed.

(** X15: a snapshot interval that is zero, or not above the time step, is
    replaced by the time step, as the default [None] is: the step interval
    is one, and the run is the run of the default, yielding after every step
    that ends past [snapshot_start]. *)
Theorem small_interval_is_default (self : BarotropicModel) (fuel : nat)
    (run_time ss x : Qc) :
  dt self <> 0 ->
  x = 0 \/ x <= dt self ->
  step_interval_of self (Some x) = 1%Z /\
  step_interval_of self None = 1%Z /\
  run_with_snapshots fuel self run_time ss (Some x) =
    run_with_snapshots fuel self run_time ss None.
Proof.
  intros Hdt Hx.
  assert (Hone : Qceiling (dt self / dt self)%Qc = 1%Z).
  { unfold Qcdiv. rewrite Qcmult_inv_r by exact Hdt. reflexivity. }
  assert (Hs : step_interval_of self (Some x) = 1%Z).
  { unfold step_interval_of. rewrite effective_interval_floor by exact Hx. exact Hone. }
  assert (Hn : step_interval_of self None = 1%Z).
  { unfold step_interval_of. rewrite effective_interval_default. exact Hone. }
  split; [exact Hs|]. split; [exact Hn|].
  unfold run_with_snapshots. rewrite Hs, Hn. reflexivity.
Qed.

Lemma small_interval_is_default_witness :
  step_interval_of demo_model (Some (Qc_of_Z 3)) = 1%Z /\
  step_interval_of demo_model None = 1%Z /\
  run_with_snapshots 8 demo_model (Qc_of_Z 50) 0 (Some (Qc_of_Z 3)) =
    run_with_snapshots 8 demo_model (Qc_of_Z 50) 0 None.
Proof.
  apply (small_interval_is_default demo_model 8 (Qc_of_Z 50) 0 (Qc_of_Z 3)).
  - vm_compute. discriminate.
  - right. vm_compute. discriminate.
Defined.

(** X16: with a positive time step and [t + run_time <= -dt] the loop body
    never runs: the generator yields nothing, calls [step_forward] not once
    and leaves the model as it found it. *)
Theorem no_steps_before_minus_dt (self : BarotropicModel) (fuel : nat)
    (run_time ss : Qc) (snapshot_interval : option Qc) :
  0 < dt self ->
  t self + run_time <= - dt self ->
  (0 < fuel)%nat ->
  run_with_snapshots fuel self run_time ss snapshot_interval =
    Done {| yields := []; calls := 0; final := self |}.
Proof.
  intros Hdt Hneg Hfuel.
  assert (Htarget : (target_steps_of self run_time <= -1)%Z).
  { unfold target_steps_of.
    change (-1)%Z with (Qceiling (inject_Z (-1))). apply Qceiling_resp_le.
    assert (Hq : (t self + run_time) / dt self <= - (1)).
    { replace (- (1)) with (- dt self / dt self)
        by (field; apply not_eq_sym, Qclt_not_eq, Hdt).
      unfold Qcdiv. apply Qcmult_le_compat_r; [exact Hneg|].
      apply Qclt_le_weak, Qcinv_pos, Hdt. }
    unfold Qcle in Hq. change (this (- (1))) with (inject_Z (-1)) in Hq. exact Hq. }
  rewrite run_with_snapshots_closed_form by (try assumption; lia).
  unfold loop_snapshots. rewrite seqZ_nil by lia.
  replace (Z.to_nat (target_steps_of self run_time + 1)) with 0%nat by lia.
  reflexivity.
Qed.

Lemma no_steps_before_minus_dt_witness :
  run_with_snapshots 1 demo_model (- Qc_of_Z 10) 0 None =
    Done {| yields := []; calls := 0; final := demo_model |}.
Proof.
  apply (no_steps_before_minus_dt demo_model 1 (- Qc_of_Z 10) 0 None).
  - reflexivity.
  - vm_compute. discriminate.
  - lia.
Defined.

(** X17: with a positive time step and [t + run_time = 0], as for
    [run_time = 0] on a new model, the generator still takes one step: run
    to exhaustion it calls [step_forward] exactly once and leaves the clock
    one [dt] further. *)
Theorem zero_run_time_takes_one_step (self : BarotropicModel) (fuel : nat)
    (run_time ss : Qc) (snapshot_interval : option Qc) :
  0 < dt self ->
  t self + run_time = 0 ->
  (1 < fuel)%nat ->
  exists r : run,
    run_with_snapshots fuel self run_time ss snapshot_interval = Done r /\
    calls r = 1%nat /\
    final r = step_forward self /\
    t (final r) = t self + dt self.
Proof.
  intros Hdt Hzero Hfuel.
  assert (Htarget : target_steps_of self run_time = 0%Z).
  { unfold target_steps_of. rewrite Hzero. unfold Qcdiv. rewrite Qcmult_0_l. reflexivity. }
  eexists. split.
  { apply run_with_snapshots_closed_form; [exact Hdt|]. rewrite Htarget. simpl. lia. }
  cbn [calls final]. rewrite Htarget. simpl Z.to_nat.
  repeat split. apply step_forward_t.
Qed.

Lemma zero_run_time_takes_one_step_witness :
  exists r : run,
    run_with_snapshots 2 demo_model 0 0 None = Done r /\
    calls r = 1%nat /\
    final r = step_forward demo_model /\
    t (final r) = t demo_model + dt demo_model.
Proof.
  apply (zero_run_time_takes_one_step demo_model 2 0 0 None).
  - reflexivity.
  - qc_eq.
  - lia.
Defined.
